(** * qstrader/algo/alpha_model.py: the AlphaModel abstract base class

    A shallow embedding of [AlphaModel] and of the Python machinery it
    relies on (instance attribute dictionaries, exceptions and their class
    hierarchy, [abc.ABC] with [@abstractmethod]), followed by the
    properties of the constructor, of the [name] property and of the
    abstract lifecycle methods. *)

From stdpp Require Import gmap strings list fin_maps.

Open Scope string_scope.
Open Scope list_scope.
Set Warnings "-register-all".

(** ** Python values *)

(** The objects that reach the code: the constants, strings, the built-in
    containers, and instances of user classes.  A [VDict] keeps its items
    in insertion order, the order [dict.items()] iterates in.  [VObject]
    is an instance of a class that derives from neither [str] nor [dict];
    an instance of a subclass of [str] or [dict] is the [VStr] or [VDict]
    of its contents. *)
Inductive value : Type :=
  | VNone
  | VBool (b : bool)
  | VInt (n : Z)
  | VStr (s : string)
  | VTuple (xs : list value)
  | VList (xs : list value)
  | VDict (items : list (value * value))
  | VObject (cls : string) (attrs : list (string * value)).

(** [type(v)], as far as the code looks at it. *)
Inductive pytype : Type :=
  | type_NoneType
  | type_bool
  | type_int
  | type_str
  | type_tuple
  | type_list
  | type_dict
  | type_class (name : string).

Definition type (v : value) : pytype :=
  match v with
  | VNone => type_NoneType
  | VBool _ => type_bool
  | VInt _ => type_int
  | VStr _ => type_str
  | VTuple _ => type_tuple
  | VList _ => type_list
  | VDict _ => type_dict
  | VObject cls _ => type_class cls
  end.

(** [isinstance(v, str)] and [isinstance(v, dict)]. *)
Definition isinstance_str (v : value) : bool :=
  match v with VStr _ => true | _ => false end.

Definition isinstance_dict (v : value) : bool :=
  match v with VDict _ => true | _ => false end.

(** [v is not None]. *)
Definition is_not_None (v : value) : bool :=
  match v with VNone => false | _ => true end.

(** ** Exceptions *)

(** The exception classes in play: the built-in ones the module raises or
    can meet, and the module's own [AlphaModelException]. *)
Inductive exc_class : Type :=
  | BaseException
  | Exception
  | TypeError
  | ValueError
  | AttributeError
  | RuntimeError
  | NotImplementedError
  | AlphaModelException.

#[global] Instance exc_class_eq_dec : EqDecision exc_class.
Proof. solve_decision. Defined.

(** The direct base of each class: Python's built-in hierarchy, and
    [class AlphaModelException(Exception)]. *)
Definition base (c : exc_class) : option exc_class :=
  match c with
  | BaseException => None
  | Exception => Some BaseException
  | TypeError => Some Exception
  | ValueError => Some Exception
  | AttributeError => Some Exception
  | RuntimeError => Some Exception
  | NotImplementedError => Some RuntimeError
  | AlphaModelException => Some Exception
  end.

(** The classes above [c], nearest first; the hierarchy is four deep. *)
Fixpoint bases_upto (depth : nat) (c : exc_class) : list exc_class :=
  match depth with
  | O => []
  | S d => match base c with
           | None => []
           | Some b => b :: bases_upto d b
           end
  end.

Definition mro (c : exc_class) : list exc_class := c :: bases_upto 4 c.

Definition issubclass (c d : exc_class) : bool := bool_decide (d ∈ mro c).

(** An exception's argument.  The two formatted messages keep the format
    string and its argument apart: rendering them is the argument's own
    [__str__]. *)
Inductive message : Type :=
  | Literal (s : string)
  | Format (template : string) (arg : value)     (* template.format(arg) *)
  | Percent (template : string) (arg : pytype)   (* template % arg *)
  | AbstractMethods (cls : string) (names : gset string).

Record exception : Type := raise_ { exc_type : exc_class; exc_arg : message }.

(** [except handler:] catches [e] when [type(e)] is a subclass of
    [handler]. *)
Definition catches (handler : exc_class) (e : exception) : bool :=
  issubclass (exc_type e) handler.

(** ** Computations *)

(** What a call can observe and change: the attribute dictionary of
    [self], and the membership tests made on [existing_sources] so far
    (the keys tested, oldest first). *)
Record state : Type := State {
  self : gmap string value;
  queries : list value
}.

Inductive result (A : Type) : Type :=
  | Return (a : A)
  | Raise (e : exception).
Arguments Return {A} a.
Arguments Raise {A} e.

(** A call runs from a state to a result and a state; a raised exception
    leaves the state as it was when it was raised. *)
Definition M (A : Type) : Type := state → result A * state.

Definition ret {A} (a : A) : M A := λ σ, (Return a, σ).

Definition raise {A} (c : exc_class) (arg : message) : M A :=
  λ σ, (Raise (raise_ c arg), σ).

Definition bind {A B} (m : M A) (k : A → M B) : M B :=
  λ σ, match m σ with
       | (Return a, σ') => k a σ'
       | (Raise e, σ') => (Raise e, σ')
       end.

Declare Scope py_scope.
Delimit Scope py_scope with py.
Notation "x <- m ;; k" := (bind m (λ x, k))
  (at level 100, m at next level, right associativity) : py_scope.
Notation "m ;; k" := (bind m (λ _, k))
  (at level 100, right associativity) : py_scope.
Open Scope py_scope.

(** [self.attr = v] *)
Definition setattr (attr : string) (v : value) : M unit :=
  λ σ, (Return tt, State (<[attr := v]> (self σ)) (queries σ)).

(** [self.attr] *)
Definition getattr (attr : string) : M value :=
  λ σ, match self σ !! attr with
       | Some v => (Return v, σ)
       | None => (Raise (raise_ AttributeError (Literal attr)), σ)
       end.

(** [m] run from [σ]: what it returns or raises, and the state it leaves. *)
Definition outcome {A} (m : M A) (σ : state) : result A := fst (m σ).
Definition final {A} (m : M A) (σ : state) : state := snd (m σ).

(** ** Classes and [abc] *)

(** A member of a class body: a plain [def] (or property), or one under
    [@abstractmethod]. *)
Inductive member : Type := method | abstractmethod.

#[global] Instance member_eq_dec : EqDecision member.
Proof. solve_decision. Defined.

(** [AlphaModel] and the classes derived from it, each with the members
    its own body defines.  The derived classes are those that leave
    [__init__], [name] and [_check_source_list] as inherited. *)
Inductive pyclass : Type :=
  | AlphaModel
  | Subclass (name : string) (parent : pyclass) (namespace : gmap string member).

(** The body of [class AlphaModel(ABC)]. *)
Definition AlphaModel_namespace : gmap string member :=
  {[ "__init__" := method;
     "name" := method;
     "_check_source_list" := method;
     "update" := abstractmethod;
     "forecast" := abstractmethod ]}.

Definition __name__ (cls : pyclass) : string :=
  match cls with
  | AlphaModel => "AlphaModel"
  | Subclass name _ _ => name
  end.

(** [getattr(cls, attr, None)]: the nearest definition along the bases. *)
Fixpoint class_getattr (cls : pyclass) (attr : string) : option member :=
  match cls with
  | AlphaModel => AlphaModel_namespace !! attr
  | Subclass _ parent namespace =>
      match namespace !! attr with
      | Some m => Some m
      | None => class_getattr parent attr
      end
  end.

(** [getattr(value, "__isabstractmethod__", False)] *)
Definition isabstractmethod (m : option member) : bool :=
  match m with Some abstractmethod => true | _ => false end.

Definition own_abstracts (namespace : gmap string member) : gset string :=
  dom (filter (λ kv, kv.2 = abstractmethod) namespace).

(** [cls.__abstractmethods__] as [ABCMeta.__new__] computes it: the
    abstract members of the class body, and the names abstract in the
    base that still resolve to an abstract member. *)
Fixpoint abstractmethods (cls : pyclass) : gset string :=
  match cls with
  | AlphaModel => own_abstracts AlphaModel_namespace
  | Subclass _ parent namespace =>
      own_abstracts namespace ∪
      filter (λ name, isabstractmethod (class_getattr cls name))
             (abstractmethods parent)
  end.

(** [object.__new__(cls)]: refuses a class with abstract methods left. *)
Definition __new__ (cls : pyclass) : M unit :=
  if decide (abstractmethods cls = ∅) then ret tt
  else raise TypeError (AbstractMethods (__name__ cls) (abstractmethods cls)).

(** ** The module *)

Section alpha_model.

(** Modelled from the spec: [existing_sources], imported from
    [nutrader.util], is the Source Registry, "a process-wide enumerable
    set of known data-source identifiers" of which only the membership
    test is used. *)
Variable existing_sources : gset string.

(** [source in existing_sources]; an object that is not a string equals
    no identifier of the registry. *)
Definition known_source (source : value) : bool :=
  match source with
  | VStr s => bool_decide (s ∈ existing_sources)
  | _ => false
  end.

Definition in_existing_sources (source : value) : M bool :=
  λ σ, (Return (known_source source),
        State (self σ) (queries σ ++ [source])).

(** [sources.items()] *)
Definition items (sources : value) : list (value * value) :=
  match sources with
  | VDict kvs => kvs
  | _ => []
  end.

(** [for source, params in sources.items(): ...] *)
Fixpoint for_source_params (kvs : list (value * value)) : M unit :=
  match kvs with
  | [] => ret tt
  | (source, params) :: rest =>
      found <- in_existing_sources source ;;
      if negb found then
        raise ValueError (Format "Source {} does not exist!" source)
      else for_source_params rest
  end.

Definition _check_source_list (sources : value) : M value :=
  if negb (isinstance_dict sources) then
    raise TypeError
      (Literal ("Alpha Model needs to be given a dictionary of"
                +:+ " sources and their parameters"))
  else
    for_source_params (items sources) ;;
    ret sources.

Definition __init__ (model_id sources_dict : value) : M unit :=
  setattr "id" model_id ;;
  checked <- _check_source_list sources_dict ;;
  setattr "sources_dict" checked ;;
  setattr "_name" VNone.

(** The [name] property: its getter and its setter. *)
Definition name : M value :=
  _name <- getattr "_name" ;;
  if is_not_None _name then ret _name
  else raise ValueError (Literal "Name has not been set.").

Definition name_setter (v : value) : M unit :=
  if isinstance_str v then setattr "_name" v
  else raise ValueError
         (Percent "Name has to be a string and not %s" (type v)).

Definition update (dt : value) : M value :=
  raise NotImplementedError (Literal "Should implement update()").

Definition forecast : M value :=
  raise NotImplementedError (Literal "Should implement forecast()").

(** [cls(model_id, sources_dict)]: a new instance with no attribute yet,
    then [__init__] on it.  The caller gets the instance only when
    neither raises; the membership tests made are reported beside it. *)
Definition instantiate (cls : pyclass) (model_id sources_dict : value)
  : result (gmap string value) * list value :=
  match (__new__ cls ;; __init__ model_id sources_dict) (State ∅ []) with
  | (Return _, σ) => (Return (self σ), queries σ)
  | (Raise e, σ) => (Raise e, queries σ)
  end.

(** The operations open to the holder of a model, besides the abstract
    ones: reading [name] and assigning to it. *)
Inductive operation : Type :=
  | get_name
  | set_name (v : value).

(** The holder goes on after an exception, with the instance as the
    failed call left it. *)
Definition perform (σ : state) (op : operation) : state :=
  match op with
  | get_name => final name σ
  | set_name v => final (name_setter v) σ
  end.

Definition perform_all (ops : list operation) (σ : state) : state :=
  foldl perform σ ops.

End alpha_model.

(** A class is concrete when no abstract method is left in it. *)
Definition concrete (cls : pyclass) : Prop := abstractmethods cls = ∅.

(** [cls] implements [name] when the name resolves to a plain method. *)
Definition implements (cls : pyclass) (name : string) : bool :=
  bool_decide (class_getattr cls name = Some method).

(** An instance as [__init__] leaves it. *)
Definition initialised (model_id sources_dict : value) : gmap string value :=
  <["_name" := VNone]>
    (<["sources_dict" := sources_dict]> (<["id" := model_id]> ∅)).

(** The [_name] attribute is there and holds [None] or a string. *)
Definition name_slot (obj : gmap string value) : Prop :=
  ∃ v, obj !! "_name" = Some v ∧ (v = VNone ∨ isinstance_str v = true).

(** The string an operation assigns to [name], if it assigns one. *)
Definition assigned_str (op : operation) : option string :=
  match op with
  | set_name (VStr s) => Some s
  | _ => None
  end.

(** The last string a sequence of operations assigns to [name]. *)
Definition last_assigned (ops : list operation) : option string :=
  last (omap assigned_str ops).

(** ** Sample inputs *)

Definition momentum_registry : gset string := {[ "momentum_factor" ]}.

Definition MomentumV1 : pyclass :=
  Subclass "MomentumV1" AlphaModel
    {[ "update" := method; "forecast" := method ]}.

Definition OnlyUpdate : pyclass :=
  Subclass "OnlyUpdate" AlphaModel {[ "update" := method ]}.

Definition momentum_config : list (value * value) :=
  [(VStr "momentum_factor", VDict [(VStr "window", VInt 20)])].

Definition bogus_config : list (value * value) :=
  [(VStr "momentum_factor", VNone); (VStr "bogus_source", VDict [])].

Definition wider_registry : gset string :=
  {[ "momentum_factor"; "value_factor" ]}.

Definition two_sources : list (value * value) :=
  [(VStr "momentum_factor", VNone); (VStr "value_factor", VInt 3)].

Definition two_sources_swapped : list (value * value) :=
  [(VStr "value_factor", VInt 3); (VStr "momentum_factor", VNone)].


(** ** Properties *)

(** *** Abstract methods *)

Lemma elem_of_own_abstracts namespace name :
  name ∈ own_abstracts namespace ↔ namespace !! name = Some abstractmethod.
Proof.
  unfold own_abstracts. rewrite elem_of_dom. split.
  - intros [m Hm]. apply map_lookup_filter_Some in Hm as [Hm Heq].
    simpl in Heq. by subst m.
  - intros Hm. exists abstractmethod. by apply map_lookup_filter_Some.
Qed.

Lemma elem_of_abstractmethods cls name :
  name ∈ abstractmethods cls ↔ class_getattr cls name = Some abstractmethod.
Proof.
  induction cls as [|cname parent IH namespace]; simpl.
  - apply elem_of_own_abstracts.
  - rewrite elem_of_union, elem_of_filter, elem_of_own_abstracts, IH. simpl.
    destruct (namespace !! name) as [[]|] eqn:Hns; simpl.
    + split; [intros [?|[[] _]]|]; done.
    + split; [|left]; done.
    + split; [intros [?|[_ ?]]; done |].
      intros Hp. right. by rewrite Hp.
Qed.

Lemma class_getattr_lifecycle cls name :
  name = "update" ∨ name = "forecast" → is_Some (class_getattr cls name).
Proof.
  intros Hname. induction cls as [|cname parent IH namespace]; simpl.
  - destruct Hname as [-> | ->]; by eexists.
  - destruct (namespace !! name); [by eexists | done].
Qed.

Lemma not_implemented_abstract cls name :
  name = "update" ∨ name = "forecast" →
  implements cls name = false → name ∈ abstractmethods cls.
Proof.
  intros Hname Himpl. apply elem_of_abstractmethods.
  destruct (class_getattr_lifecycle cls name Hname) as [[] Hm]; [|done].
  unfold implements in Himpl. by rewrite Hm, bool_decide_eq_false in Himpl.
Qed.

(** A class deriving directly from [AlphaModel] that defines both
    lifecycle methods, and no abstract method of its own, is concrete. *)
Lemma implements_both_concrete cname (namespace : gmap string member) :
  namespace !! "update" = Some method →
  namespace !! "forecast" = Some method →
  own_abstracts namespace = ∅ →
  concrete (Subclass cname AlphaModel namespace).
Proof.
  intros Hu Hf Hown. apply elem_of_equiv_empty_L. intros attr Hin.
  apply elem_of_abstractmethods in Hin. simpl in Hin.
  destruct (namespace !! attr) as [m|] eqn:Hns.
  - injection Hin as ->.
    apply elem_of_own_abstracts in Hns. rewrite Hown in Hns. set_solver.
  - unfold AlphaModel_namespace in Hin.
    repeat (apply lookup_insert_Some in Hin as [[? ?]|[_ Hin]];
            [congruence|]).
    apply lookup_singleton_Some in Hin as [? _]. congruence.
Qed.

Section properties.

Variable existing_sources : gset string.

Abbreviation known := (known_source existing_sources).
Abbreviation loop := (for_source_params existing_sources).
Abbreviation check := (_check_source_list existing_sources).

(** *** The loop over the items *)

(** With every key registered the loop runs to its end: one membership
    test per key, in order, and the instance untouched. *)
Lemma loop_all_known (kvs : list (value * value)) σ :
  Forall (λ kv, known kv.1 = true) kvs →
  loop kvs σ = (Return tt, State (self σ) (queries σ ++ kvs.*1)).
Proof.
  intros Hall. revert σ.
  induction Hall as [|[source params] rest Hk _ IH]; intros [obj qs]; simpl.
  - by rewrite app_nil_r.
  - simpl in Hk. unfold bind, in_existing_sources. simpl. rewrite Hk. simpl.
    rewrite IH. simpl. by rewrite <- app_assoc.
Qed.

(** The loop stops at the first key that is not registered and raises
    with that key; the keys after it are never tested. *)
Lemma loop_first_unknown (pre post : list (value * value)) source params σ :
  Forall (λ kv, known kv.1 = true) pre →
  known source = false →
  loop (pre ++ (source, params) :: post) σ =
    (Raise (raise_ ValueError (Format "Source {} does not exist!" source)),
     State (self σ) (queries σ ++ pre.*1 ++ [source])).
Proof.
  intros Hpre Hsrc. revert σ.
  induction Hpre as [|[k p] pre Hk _ IH]; intros [obj qs]; simpl.
  - unfold bind, in_existing_sources, raise. simpl. by rewrite Hsrc.
  - simpl in Hk. unfold bind, in_existing_sources. simpl. rewrite Hk. simpl.
    rewrite IH. simpl. by rewrite <- app_assoc.
Qed.

(** A list with an unregistered key splits at the first one. *)
Lemma first_unknown (kvs : list (value * value)) :
  Exists (λ kv, known kv.1 = false) kvs →
  ∃ pre source params post,
    kvs = pre ++ (source, params) :: post ∧
    Forall (λ kv, known kv.1 = true) pre ∧ known source = false.
Proof.
  induction kvs as [|[k p] rest IH]; intros Hex.
  - by apply Exists_nil in Hex.
  - destruct (known k) eqn:Hk.
    + apply Exists_cons in Hex as [Hhd | Htl]; [simpl in Hhd; congruence|].
      destruct (IH Htl) as (pre & source & params & post & -> & Hpre & Hsrc).
      exists ((k, p) :: pre), source, params, post.
      split; [done|]. split; [|done]. by constructor.
    + by exists [], k, p, rest.
Qed.

(** The loop reads the keys only. *)
Lemma loop_keys_only (kvs kvs' : list (value * value)) σ :
  kvs.*1 = kvs'.*1 → loop kvs σ = loop kvs' σ.
Proof.
  revert kvs' σ.
  induction kvs as [|[k p] rest IH]; intros [|[k' p'] rest'] σ Hkeys;
    try discriminate; [done|].
  simpl in Hkeys. injection Hkeys as <- Hrest. simpl. unfold bind.
  destruct (in_existing_sources existing_sources k σ) as [[[]|e] σ']; simpl;
    [by apply IH | done | done].
Qed.

(** The loop never touches the instance. *)
Lemma loop_self kvs σ : self (final (loop kvs) σ) = self σ.
Proof.
  revert σ. induction kvs as [|[k p] rest IH]; intros σ; [done|].
  unfold final in *. simpl. unfold bind, in_existing_sources. simpl.
  destruct (known k); simpl; [|done]. by rewrite IH.
Qed.

(** *** [_check_source_list] *)

Lemma check_not_dict sources σ :
  isinstance_dict sources = false →
  check sources σ =
    (Raise (raise_ TypeError
       (Literal "Alpha Model needs to be given a dictionary of sources and their parameters")),
     σ).
Proof. intros Hd. unfold _check_source_list. by rewrite Hd. Qed.

Lemma check_dict kvs σ :
  check (VDict kvs) σ =
    match loop kvs σ with
    | (Return _, σ') => (Return (VDict kvs), σ')
    | (Raise e, σ') => (Raise e, σ')
    end.
Proof. reflexivity. Qed.

(** Whatever it is given, the check returns its argument or raises, and
    leaves the instance as it found it. *)
Lemma check_returns_argument sources σ r σ' :
  check sources σ = (r, σ') →
  self σ' = self σ ∧ ∀ checked, r = Return checked → checked = sources.
Proof.
  destruct (isinstance_dict sources) eqn:Hd.
  - destruct sources; try discriminate. rewrite check_dict.
    pose proof (loop_self items0 σ) as Hself. unfold final in Hself.
    destruct (loop items0 σ) as [[[]|e] σ1]; simpl in Hself;
      intros [= <- <-]; (split; [done|]); congruence.
  - rewrite check_not_dict by done. intros [= <- <-]. split; [done|]. congruence.
Qed.

(** *** [__init__] and instantiation *)

Lemma init_unfold model_id sources_dict σ :
  __init__ existing_sources model_id sources_dict σ =
    match check sources_dict (State (<["id" := model_id]> (self σ)) (queries σ)) with
    | (Return checked, σ') =>
        (Return tt,
         State (<["_name" := VNone]> (<["sources_dict" := checked]> (self σ')))
               (queries σ'))
    | (Raise e, σ') => (Raise e, σ')
    end.
Proof.
  unfold __init__, bind, setattr. simpl.
  by destruct (check sources_dict _) as [[checked|e] σ'].
Qed.

Lemma instantiate_concrete cls model_id sources_dict :
  concrete cls →
  instantiate existing_sources cls model_id sources_dict =
    match check sources_dict (State (<["id" := model_id]> ∅) []) with
    | (Return checked, σ') =>
        (Return (<["_name" := VNone]> (<["sources_dict" := checked]> (self σ'))),
         queries σ')
    | (Raise e, σ') => (Raise e, queries σ')
    end.
Proof.
  intros Hc. unfold instantiate, bind at 1, __new__.
  rewrite decide_True by done. unfold ret. rewrite init_unfold. simpl.
  by destruct (check sources_dict _) as [[checked|e] σ'].
Qed.

Lemma instantiate_abstract cls model_id sources_dict :
  abstractmethods cls ≠ ∅ →
  instantiate existing_sources cls model_id sources_dict =
    (Raise (raise_ TypeError
              (AbstractMethods (__name__ cls) (abstractmethods cls))), []).
Proof.
  intros Hc. unfold instantiate, bind, __new__.
  by rewrite decide_False by done.
Qed.

(** A returned instance is the one [__init__] builds from the arguments. *)
Lemma instantiate_returns cls model_id sources_dict obj qs :
  instantiate existing_sources cls model_id sources_dict = (Return obj, qs) →
  concrete cls ∧ obj = initialised model_id sources_dict.
Proof.
  destruct (decide (abstractmethods cls = ∅)) as [Hc|Hc].
  - rewrite instantiate_concrete by done.
    destruct (check sources_dict _) as [[checked|e] σ'] eqn:Hcheck;
      [|discriminate].
    apply check_returns_argument in Hcheck as [Hself Hret].
    intros [= <- <-]. split; [done|].
    rewrite (Hret checked eq_refl), Hself. reflexivity.
  - rewrite instantiate_abstract by done. discriminate.
Qed.

(** *** The [name] property *)

Lemma name_unfold σ :
  name σ =
    match self σ !! "_name" with
    | Some VNone => (Raise (raise_ ValueError (Literal "Name has not been set.")), σ)
    | Some v => (Return v, σ)
    | None => (Raise (raise_ AttributeError (Literal "_name")), σ)
    end.
Proof.
  unfold name, bind, getattr.
  destruct (self σ !! "_name") as [[]|]; reflexivity.
Qed.

Lemma name_setter_str s σ :
  name_setter (VStr s) σ =
    (Return tt, State (<["_name" := VStr s]> (self σ)) (queries σ)).
Proof. reflexivity. Qed.

Lemma name_setter_not_str v σ :
  isinstance_str v = false →
  name_setter v σ =
    (Raise (raise_ ValueError
              (Percent "Name has to be a string and not %s" (type v))), σ).
Proof. intros Hv. unfold name_setter. by rewrite Hv. Qed.

(** Reading [name] changes nothing. *)
Lemma name_final σ : final name σ = σ.
Proof.
  unfold final. rewrite name_unfold.
  destruct (self σ !! "_name") as [[]|]; reflexivity.
Qed.

(** Neither operation writes an attribute other than [_name], and neither
    tests the registry. *)
Lemma perform_frame σ op attr :
  attr ≠ "_name" →
  self (perform σ op) !! attr = self σ !! attr ∧
  queries (perform σ op) = queries σ.
Proof.
  intros Hattr. destruct op as [|v]; simpl.
  - by rewrite name_final.
  - unfold final, name_setter. destruct (isinstance_str v); simpl; [|done].
    by rewrite lookup_insert_ne.
Qed.

Lemma perform_all_frame ops σ attr :
  attr ≠ "_name" →
  self (perform_all ops σ) !! attr = self σ !! attr.
Proof.
  intros Hattr. revert σ. unfold perform_all.
  induction ops as [|op ops IH]; intros σ; simpl; [done|].
  rewrite IH. by apply perform_frame.
Qed.

(** [_name], once there, stays there, as [None] or a string. *)
Lemma perform_name_slot σ op : name_slot (self σ) → name_slot (self (perform σ op)).
Proof.
  intros Hslot. destruct op as [|v]; simpl.
  - by rewrite name_final.
  - unfold final, name_setter. destruct (isinstance_str v) eqn:Hv; simpl; [|done].
    exists v. rewrite lookup_insert_eq. auto.
Qed.

Lemma initialised_name_slot model_id sources_dict :
  name_slot (initialised model_id sources_dict).
Proof. exists VNone. split; [reflexivity | by left]. Qed.

(** *** Construction *)

(** C1: for a concrete class and a dict [m] whose keys are all in
    [existing_sources], instantiation returns an instance; its
    [sources_dict] is [m] itself, and the check hands [m] back without
    touching the instance. *)
Theorem instantiate_registered cls model_id (m : list (value * value)) :
  concrete cls →
  Forall (λ kv, known kv.1 = true) m →
  instantiate existing_sources cls model_id (VDict m) =
    (Return (initialised model_id (VDict m)), m.*1)
  ∧ initialised model_id (VDict m) !! "sources_dict" = Some (VDict m)
  ∧ ∀ σ, outcome (check (VDict m)) σ = Return (VDict m)
         ∧ self (final (check (VDict m)) σ) = self σ.
Proof.
  intros Hc Hall. split; [|split; [reflexivity|]].
  - rewrite instantiate_concrete, check_dict, loop_all_known by done.
    reflexivity.
  - intros σ. unfold outcome, final.
    by rewrite check_dict, loop_all_known.
Qed.

(** C2: for a concrete class and a dict [m] with a key that is not in
    [existing_sources], instantiation raises [ValueError] with the message
    ["Source {} does not exist!"] formatted with such a key of [m], and no
    instance is returned. *)
Theorem instantiate_unknown_source cls model_id (m : list (value * value)) :
  concrete cls →
  Exists (λ kv, known kv.1 = false) m →
  ∃ source,
    source ∈ m.*1 ∧ known source = false ∧
    (instantiate existing_sources cls model_id (VDict m)).1 =
      Raise (raise_ ValueError (Format "Source {} does not exist!" source)).
Proof.
  intros Hc Hex.
  destruct (first_unknown m Hex) as (pre & source & params & post & -> & Hpre & Hsrc).
  exists source. split; [|split; [done|]].
  - rewrite fmap_app, fmap_cons. set_solver.
  - by rewrite instantiate_concrete, check_dict, loop_first_unknown.
Qed.

(** C3: for a concrete class and an argument that is not a dict,
    instantiation raises [TypeError], and no membership test on
    [existing_sources] has been made. *)
Theorem instantiate_not_dict cls model_id sources :
  concrete cls →
  isinstance_dict sources = false →
  instantiate existing_sources cls model_id sources =
    (Raise (raise_ TypeError
       (Literal "Alpha Model needs to be given a dictionary of sources and their parameters")),
     []).
Proof.
  intros Hc Hd. by rewrite instantiate_concrete, check_not_dict.
Qed.

(** C10: the check looks at the keys only.  Two dicts with the same keys
    in the same order make the loop end the same way, with the same
    exception if any and the same tests made; with every key registered
    instantiation returns whatever the values are; and the empty dict
    passes. *)
Theorem check_keys_only cls model_id (m m' : list (value * value)) σ :
  concrete cls →
  m.*1 = m'.*1 →
  loop m σ = loop m' σ
  ∧ (Forall (λ k, known k = true) m.*1 →
     instantiate existing_sources cls model_id (VDict m') =
       (Return (initialised model_id (VDict m')), m'.*1))
  ∧ check (VDict []) σ = (Return (VDict []), σ)
  ∧ instantiate existing_sources cls model_id (VDict []) =
      (Return (initialised model_id (VDict [])), []).
Proof.
  intros Hc Hkeys. split; [by apply loop_keys_only|]. split; [|split].
  - rewrite Hkeys. intros Hall.
    apply instantiate_registered; [done|].
    by apply Forall_fmap in Hall.
  - by destruct σ.
  - by rewrite instantiate_concrete.
Qed.

(** *** The name *)

(** C5: on an instance that instantiation has just returned, reading
    [name] raises [ValueError] with ["Name has not been set."]. *)
Theorem name_unset_after_init cls model_id sources obj qs :
  instantiate existing_sources cls model_id sources = (Return obj, qs) →
  name (State obj qs) =
    (Raise (raise_ ValueError (Literal "Name has not been set.")), State obj qs).
Proof.
  intros [_ ->]%instantiate_returns. by rewrite name_unfold.
Qed.

(** C6: for a string [v] and any instance, assigning [v] to [name] and
    then reading [name] returns [v]. *)
Theorem name_set_get v σ :
  isinstance_str v = true →
  outcome (name_setter v ;; name) σ = Return v.
Proof.
  destruct v; try discriminate. intros _.
  unfold outcome, bind. rewrite name_setter_str, name_unfold. simpl.
  by rewrite lookup_insert_eq.
Qed.

(** C7: for a value that is not a string and any instance, assigning it
    to [name] raises [ValueError] with the message formatted with the
    value's type; the instance is as before, and so is what reading
    [name] gives. *)
Theorem name_setter_rejects v σ :
  isinstance_str v = false →
  name_setter v σ =
    (Raise (raise_ ValueError
              (Percent "Name has to be a string and not %s" (type v))), σ)
  ∧ self (final (name_setter v) σ) !! "_name" = self σ !! "_name"
  ∧ outcome name (final (name_setter v) σ) = outcome name σ.
Proof.
  intros Hv. unfold final. by rewrite name_setter_not_str.
Qed.

(** C8: after instantiation has returned an instance, whatever reads of
    and assignments to [name] follow, failed or not, [id] and
    [sources_dict] hold the constructor's arguments. *)
Theorem id_sources_dict_frame cls model_id sources obj qs ops :
  instantiate existing_sources cls model_id sources = (Return obj, qs) →
  self (perform_all ops (State obj qs)) !! "id" = Some model_id
  ∧ self (perform_all ops (State obj qs)) !! "sources_dict" = Some sources.
Proof.
  intros [_ ->]%instantiate_returns.
  rewrite !perform_all_frame by done. split; reflexivity.
Qed.

(** *** The abstract methods *)

(** C9: a class in which [update] or [forecast] does not resolve to a
    plain method has abstract methods left, and instantiating it raises
    [TypeError] before [__init__] runs; the definitions of [update] and
    [forecast] in [AlphaModel] raise [NotImplementedError]. *)
Theorem abstract_not_instantiable cls model_id sources dt σ :
  implements cls "update" = false ∨ implements cls "forecast" = false →
  abstractmethods cls ≠ ∅
  ∧ instantiate existing_sources cls model_id sources =
      (Raise (raise_ TypeError
                (AbstractMethods (__name__ cls) (abstractmethods cls))), [])
  ∧ update dt σ =
      (Raise (raise_ NotImplementedError (Literal "Should implement update()")), σ)
  ∧ forecast σ =
      (Raise (raise_ NotImplementedError (Literal "Should implement forecast()")), σ).
Proof.
  intros Hmiss.
  assert (abstractmethods cls ≠ ∅) as Habs.
  { destruct Hmiss as [Hm|Hm];
      apply not_implemented_abstract in Hm; auto; set_solver. }
  split; [done|]. split; [by apply instantiate_abstract|]. split; reflexivity.
Qed.

(** Every state a holder can reach from a returned instance has the
    [_name] slot. *)
Lemma reachable_name_slot cls model_id sources obj qs ops :
  instantiate existing_sources cls model_id sources = (Return obj, qs) →
  name_slot (self (perform_all ops (State obj qs))).
Proof.
  intros [_ ->]%instantiate_returns.
  assert (name_slot (self (State (initialised model_id sources) qs))) as Hslot
    by apply initialised_name_slot.
  revert Hslot. generalize (State (initialised model_id sources) qs).
  unfold perform_all. induction ops as [|op ops IH]; intros σ Hslot; [done|].
  simpl. apply IH. by apply perform_name_slot.
Qed.

(** *** The exceptions raised *)

Lemma loop_raises_ValueError (kvs : list (value * value)) σ e σ' :
  loop kvs σ = (Raise e, σ') → exc_type e = ValueError.
Proof.
  revert σ. induction kvs as [|[k p] rest IH]; intros σ; simpl.
  - discriminate.
  - unfold bind, in_existing_sources. simpl.
    destruct (known k); simpl; [apply IH|].
    unfold raise. by intros [= <- _].
Qed.

Lemma check_raises sources σ e σ' :
  check sources σ = (Raise e, σ') →
  exc_type e = TypeError ∨ exc_type e = ValueError.
Proof.
  destruct (isinstance_dict sources) eqn:Hd.
  - destruct sources; try discriminate. rewrite check_dict.
    destruct (loop items0 σ) as [[[]|e1] σ1] eqn:Hloop; [discriminate|].
    intros [= <- _]. right. by eapply loop_raises_ValueError.
  - rewrite check_not_dict by done. intros [= <- _]. by left.
Qed.

Lemma instantiate_raises cls model_id sources e :
  (instantiate existing_sources cls model_id sources).1 = Raise e →
  exc_type e = TypeError ∨ exc_type e = ValueError.
Proof.
  destruct (decide (abstractmethods cls = ∅)) as [Hc|Hc].
  - rewrite instantiate_concrete by done.
    destruct (check sources _) as [[checked|e1] σ'] eqn:Hcheck; [discriminate|].
    simpl. intros [= <-]. by eapply check_raises.
  - rewrite instantiate_abstract by done. simpl. intros [= <-]. by left.
Qed.

Lemma name_raises σ e :
  name_slot (self σ) → outcome name σ = Raise e → exc_type e = ValueError.
Proof.
  intros (v & Hv & _). unfold outcome. rewrite name_unfold, Hv.
  destruct v; simpl; try discriminate. by intros [= <-].
Qed.

Lemma name_setter_raises v σ e :
  outcome (name_setter v) σ = Raise e → exc_type e = ValueError.
Proof.
  unfold outcome, name_setter.
  destruct (isinstance_str v); simpl; [discriminate|]. by intros [= <-].
Qed.

(** C4, amended: whatever instantiation, reading [name] or assigning to
    [name] raises is a built-in [TypeError] or [ValueError]; a handler for
    [Exception] catches it, and a handler for [AlphaModelException] does
    not. *)
Theorem raised_errors_are_builtin e :
  (∃ cls model_id sources,
     (instantiate existing_sources cls model_id sources).1 = Raise e)
  ∨ (∃ σ, name_slot (self σ) ∧ outcome name σ = Raise e)
  ∨ (∃ v σ, outcome (name_setter v) σ = Raise e) →
  (exc_type e = TypeError ∨ exc_type e = ValueError)
  ∧ catches Exception e = true
  ∧ catches AlphaModelException e = false.
Proof.
  intros Hcall.
  assert (exc_type e = TypeError ∨ exc_type e = ValueError) as Hty.
  { destruct Hcall as [(cls & model_id & sources & Hr)|[(σ & Hslot & Hr)|(v & σ & Hr)]].
    - by eapply instantiate_raises.
    - right. by eapply name_raises.
    - right. by eapply name_setter_raises. }
  split; [done|]. unfold catches.
  destruct Hty as [-> | ->]; split; reflexivity.
Qed.

End properties.

(** ** The properties at the sample inputs *)

Lemma instantiate_registered_witness :
  concrete MomentumV1
  ∧ Forall (λ kv, known_source momentum_registry kv.1 = true) momentum_config
  ∧ instantiate momentum_registry MomentumV1 (VInt 1) (VDict momentum_config) =
      (Return (initialised (VInt 1) (VDict momentum_config)),
       [VStr "momentum_factor"]).
Proof.
  assert (concrete MomentumV1) as Hc by reflexivity.
  assert (Forall (λ kv, known_source momentum_registry kv.1 = true)
            momentum_config) as Hall by (repeat constructor).
  split; [exact Hc|]. split; [exact Hall|].
  exact (proj1 (instantiate_registered momentum_registry MomentumV1 (VInt 1)
                  momentum_config Hc Hall)).
Defined.

Lemma instantiate_unknown_source_witness :
  concrete MomentumV1
  ∧ Exists (λ kv, known_source momentum_registry kv.1 = false) bogus_config
  ∧ ∃ source,
      source ∈ bogus_config.*1 ∧ known_source momentum_registry source = false ∧
      (instantiate momentum_registry MomentumV1 (VInt 1) (VDict bogus_config)).1 =
        Raise (raise_ ValueError (Format "Source {} does not exist!" source)).
Proof.
  assert (concrete MomentumV1) as Hc by reflexivity.
  assert (Exists (λ kv, known_source momentum_registry kv.1 = false)
            bogus_config) as Hex by (right; left; reflexivity).
  split; [exact Hc|]. split; [exact Hex|].
  exact (instantiate_unknown_source momentum_registry MomentumV1 (VInt 1)
           bogus_config Hc Hex).
Defined.

Lemma instantiate_not_dict_witness :
  concrete MomentumV1
  ∧ isinstance_dict (VList [VStr "momentum_factor"]) = false
  ∧ instantiate momentum_registry MomentumV1 (VInt 1)
      (VList [VStr "momentum_factor"]) =
      (Raise (raise_ TypeError
         (Literal "Alpha Model needs to be given a dictionary of sources and their parameters")),
       []).
Proof.
  split; [reflexivity|]. split; [reflexivity|].
  apply (instantiate_not_dict momentum_registry MomentumV1 (VInt 1)
           (VList [VStr "momentum_factor"])); reflexivity.
Defined.

Lemma raised_errors_are_builtin_witness :
  outcome (name_setter (VInt 5)) (State (initialised (VInt 1) (VDict [])) []) =
    Raise (raise_ ValueError
             (Percent "Name has to be a string and not %s" type_int))
  ∧ catches Exception
      (raise_ ValueError
         (Percent "Name has to be a string and not %s" type_int)) = true
  ∧ catches AlphaModelException
      (raise_ ValueError
         (Percent "Name has to be a string and not %s" type_int)) = false.
Proof.
  split; [reflexivity|].
  apply (raised_errors_are_builtin momentum_registry).
  right. right.
  exists (VInt 5), (State (initialised (VInt 1) (VDict [])) []). reflexivity.
Defined.

(** C4 as stated fails: assigning [5] to the name of a model raises a
    [ValueError], which is not an [AlphaModelException], so a handler for
    [AlphaModelException] lets it through. *)
Lemma AlphaModelException_handler_misses :
  outcome (name_setter (VInt 5)) (State (initialised (VInt 1) (VDict [])) []) =
    Raise (raise_ ValueError
             (Percent "Name has to be a string and not %s" type_int))
  ∧ issubclass ValueError AlphaModelException = false
  ∧ ¬ (∀ v σ e, outcome (name_setter v) σ = Raise e →
                catches AlphaModelException e = true).
Proof.
  split; [reflexivity|]. split; [reflexivity|].
  intros Hall.
  specialize (Hall (VInt 5) (State (initialised (VInt 1) (VDict [])) []) _ eq_refl).
  discriminate Hall.
Qed.

Lemma name_unset_after_init_witness :
  instantiate momentum_registry MomentumV1 (VInt 1) (VDict momentum_config) =
    (Return (initialised (VInt 1) (VDict momentum_config)), [VStr "momentum_factor"])
  ∧ name (State (initialised (VInt 1) (VDict momentum_config)) [VStr "momentum_factor"]) =
      (Raise (raise_ ValueError (Literal "Name has not been set.")),
       State (initialised (VInt 1) (VDict momentum_config)) [VStr "momentum_factor"]).
Proof.
  assert (instantiate momentum_registry MomentumV1 (VInt 1) (VDict momentum_config) =
    (Return (initialised (VInt 1) (VDict momentum_config)), [VStr "momentum_factor"]))
    as Hinst by (vm_compute; reflexivity).
  split; [exact Hinst|].
  exact (name_unset_after_init momentum_registry MomentumV1 (VInt 1)
           (VDict momentum_config) _ _ Hinst).
Defined.

Lemma name_set_get_witness :
  isinstance_str (VStr "MomentumV1") = true
  ∧ outcome (name_setter (VStr "MomentumV1") ;; name) (State ∅ []) =
      Return (VStr "MomentumV1").
Proof.
  split; [reflexivity|].
  apply (name_set_get (VStr "MomentumV1") (State ∅ [])). reflexivity.
Defined.

Lemma name_setter_rejects_witness :
  isinstance_str (VInt 5) = false
  ∧ name_setter (VInt 5) (State {[ "_name" := VStr "MomentumV1" ]} []) =
      (Raise (raise_ ValueError
                (Percent "Name has to be a string and not %s" type_int)),
       State {[ "_name" := VStr "MomentumV1" ]} []).
Proof.
  split; [reflexivity|].
  apply (name_setter_rejects (VInt 5)
           (State {[ "_name" := VStr "MomentumV1" ]} [])). reflexivity.
Defined.

Lemma id_sources_dict_frame_witness :
  instantiate momentum_registry MomentumV1 (VInt 1) (VDict momentum_config) =
    (Return (initialised (VInt 1) (VDict momentum_config)), [VStr "momentum_factor"])
  ∧ self (perform_all [set_name (VStr "MomentumV1"); set_name (VInt 5); get_name]
            (State (initialised (VInt 1) (VDict momentum_config))
                   [VStr "momentum_factor"])) !! "id" = Some (VInt 1)
  ∧ self (perform_all [set_name (VStr "MomentumV1"); set_name (VInt 5); get_name]
            (State (initialised (VInt 1) (VDict momentum_config))
                   [VStr "momentum_factor"])) !! "sources_dict" =
      Some (VDict momentum_config).
Proof.
  assert (instantiate momentum_registry MomentumV1 (VInt 1) (VDict momentum_config) =
    (Return (initialised (VInt 1) (VDict momentum_config)), [VStr "momentum_factor"]))
    as Hinst by (vm_compute; reflexivity).
  split; [exact Hinst|].
  exact (id_sources_dict_frame momentum_registry MomentumV1 (VInt 1)
           (VDict momentum_config) _ _
           [set_name (VStr "MomentumV1"); set_name (VInt 5); get_name] Hinst).
Defined.

Lemma abstract_not_instantiable_witness :
  (implements OnlyUpdate "update" = false ∨ implements OnlyUpdate "forecast" = false)
  ∧ instantiate momentum_registry OnlyUpdate (VInt 1) (VDict momentum_config) =
      (Raise (raise_ TypeError
                (AbstractMethods "OnlyUpdate" (abstractmethods OnlyUpdate))), []).
Proof.
  assert (implements OnlyUpdate "update" = false
          ∨ implements OnlyUpdate "forecast" = false) as Hmiss
    by (right; reflexivity).
  split; [exact Hmiss|].
  exact (proj1 (proj2 (abstract_not_instantiable momentum_registry OnlyUpdate
                         (VInt 1) (VDict momentum_config) VNone (State ∅ []) Hmiss))).
Defined.

Lemma check_keys_only_witness :
  concrete MomentumV1
  ∧ momentum_config.*1 = [(VStr "momentum_factor", VObject "Params" [])].*1
  ∧ Forall (λ k, known_source momentum_registry k = true) momentum_config.*1
  ∧ instantiate momentum_registry MomentumV1 (VInt 1)
      (VDict [(VStr "momentum_factor", VObject "Params" [])]) =
      (Return (initialised (VInt 1) (VDict [(VStr "momentum_factor", VObject "Params" [])])),
       [VStr "momentum_factor"]).
Proof.
  assert (concrete MomentumV1) as Hc by reflexivity.
  assert (momentum_config.*1 = [(VStr "momentum_factor", VObject "Params" [])].*1)
    as Hkeys by reflexivity.
  assert (Forall (λ k, known_source momentum_registry k = true) momentum_config.*1)
    as Hall by (repeat constructor).
  split; [exact Hc|]. split; [exact Hkeys|]. split; [exact Hall|].
  exact (proj1 (proj2 (check_keys_only momentum_registry MomentumV1 (VInt 1)
                         momentum_config [(VStr "momentum_factor", VObject "Params" [])]
                         (State ∅ []) Hc Hkeys)) Hall).
Defined.

(** ** Further properties of the module *)

Section further_properties.

Variable existing_sources : gset string.

Abbreviation known' := (known_source existing_sources).
Abbreviation loop' := (for_source_params existing_sources).
Abbreviation check' := (_check_source_list existing_sources).
Abbreviation construct := (instantiate existing_sources).

(** *** How construction ends *)

(** Every key is registered, or there is a first one that is not. *)
Lemma known_or_first_unknown (m : list (value * value)) :
  Forall (λ kv, known' kv.1 = true) m
  ∨ ∃ pre source params post,
      m = pre ++ (source, params) :: post ∧
      Forall (λ kv, known' kv.1 = true) pre ∧ known' source = false.
Proof.
  induction m as [|[k p] rest IH].
  - left. constructor.
  - destruct (known' k) eqn:Hk.
    + destruct IH as [Hall|(pre & source & params & post & -> & Hpre & Hsrc)].
      * left. by constructor.
      * right. exists ((k, p) :: pre), source, params, post.
        split; [done|]. split; [by constructor | done].
    + right. by exists [], k, p, rest.
Qed.

(** Construction of a concrete class, case by case. *)
Lemma construct_cases cls model_id sources :
  concrete cls →
  (isinstance_dict sources = false ∧
   construct cls model_id sources =
     (Raise (raise_ TypeError
        (Literal "Alpha Model needs to be given a dictionary of sources and their parameters")),
      []))
  ∨ (∃ m, sources = VDict m ∧ Forall (λ kv, known' kv.1 = true) m ∧
          construct cls model_id sources =
            (Return (initialised model_id sources), m.*1))
  ∨ (∃ pre source params post,
       sources = VDict (pre ++ (source, params) :: post) ∧
       Forall (λ kv, known' kv.1 = true) pre ∧ known' source = false ∧
       construct cls model_id sources =
         (Raise (raise_ ValueError (Format "Source {} does not exist!" source)),
          pre.*1 ++ [source])).
Proof.
  intros Hc. destruct (isinstance_dict sources) eqn:Hd.
  - right. destruct sources as [| | | | | |m|]; try discriminate.
    destruct (known_or_first_unknown m)
      as [Hall|(pre & source & params & post & -> & Hpre & Hsrc)].
    + left. exists m. split; [done|]. split; [done|].
      rewrite instantiate_concrete, check_dict, loop_all_known by done.
      reflexivity.
    + right. exists pre, source, params, post.
      split; [done|]. split; [done|]. split; [done|].
      rewrite instantiate_concrete, check_dict, loop_first_unknown by done.
      reflexivity.
  - left. split; [done|]. by rewrite instantiate_concrete, check_not_dict.
Qed.

(** X1: validation stops at the first key, in insertion order, that is not
    in [existing_sources]: the [ValueError] carries that key, the keys
    before it have been tested, and the items after it are never looked
    at, whatever they are. *)
Theorem instantiate_stops_at_first_unknown cls model_id
    (pre post : list (value * value)) source params :
  concrete cls →
  Forall (λ kv, known' kv.1 = true) pre →
  known' source = false →
  construct cls model_id (VDict (pre ++ (source, params) :: post)) =
    (Raise (raise_ ValueError (Format "Source {} does not exist!" source)),
     pre.*1 ++ [source]).
Proof.
  intros Hc Hpre Hsrc.
  rewrite instantiate_concrete, check_dict, loop_first_unknown by done.
  reflexivity.
Qed.

(** X2: instantiation returns an instance exactly when the class is
    concrete and the configuration is a dict whose keys are all in
    [existing_sources]; the instance then holds the two arguments and an
    unset name, and each key has been tested once, in order. *)
Theorem instantiate_returns_iff cls model_id sources obj qs :
  construct cls model_id sources = (Return obj, qs)
  ↔ concrete cls
    ∧ (∃ m, sources = VDict m ∧ Forall (λ kv, known' kv.1 = true) m ∧ qs = m.*1)
    ∧ obj = initialised model_id sources.
Proof.
  split.
  - intros Hret. destruct (instantiate_returns _ _ _ _ _ _ Hret) as [Hc ->].
    split; [done|]. split; [|done].
    destruct (construct_cases cls model_id sources Hc)
      as [[_ Heq]|[(m & -> & Hall & Heq)|(pre & source & params & post & _ & _ & _ & Heq)]];
      rewrite Heq in Hret; try discriminate.
    injection Hret as <-. by exists m.
  - intros (Hc & (m & -> & Hall & ->) & ->).
    rewrite instantiate_concrete, check_dict, loop_all_known by done.
    reflexivity.
Qed.

(** X3: the class of the exception tells which check failed.  From a
    concrete class, a [TypeError] means the configuration was not a dict
    and no key was tested; a [ValueError] means it was a dict, and the
    exception carries the last key tested, which is not registered. *)
Theorem instantiate_error_class cls model_id sources e qs :
  concrete cls →
  construct cls model_id sources = (Raise e, qs) →
  (exc_type e = TypeError ∧ isinstance_dict sources = false ∧ qs = [])
  ∨ (exc_type e = ValueError ∧ isinstance_dict sources = true ∧
     ∃ source, last qs = Some source ∧ known' source = false ∧
               exc_arg e = Format "Source {} does not exist!" source).
Proof.
  intros Hc Hraise.
  destruct (construct_cases cls model_id sources Hc)
    as [[Hd Heq]|[(m & -> & Hall & Heq)|(pre & source & params & post & -> & _ & Hsrc & Heq)]];
    rewrite Heq in Hraise; try discriminate.
  - injection Hraise as <- <-. by left.
  - injection Hraise as <- <-. right.
    split; [done|]. split; [done|].
    exists source. by rewrite last_snoc.
Qed.

(** X4: the registry is asked only about keys of the configuration, in
    insertion order and each at most once: the keys tested are a prefix
    of the dict's keys. *)
Theorem queries_prefix_of_keys cls model_id sources :
  (construct cls model_id sources).2 `prefix_of` (items sources).*1.
Proof.
  destruct (decide (abstractmethods cls = ∅)) as [Hc|Hc].
  - destruct (construct_cases cls model_id sources Hc)
      as [[Hd Heq]|[(m & -> & Hall & Heq)|(pre & source & params & post & -> & _ & _ & Heq)]];
      rewrite Heq; simpl.
    + apply prefix_nil.
    + done.
    + rewrite fmap_app, fmap_cons. simpl.
      apply prefix_app, prefix_cons, prefix_nil.
  - rewrite instantiate_abstract by done. apply prefix_nil.
Qed.

(** X5: whether a configuration is accepted does not depend on the order
    of its items: a reordering of an accepted dict is accepted. *)
Theorem instantiate_permutation cls model_id (m m' : list (value * value)) :
  m ≡ₚ m' →
  construct cls model_id (VDict m) =
    (Return (initialised model_id (VDict m)), m.*1) →
  construct cls model_id (VDict m') =
    (Return (initialised model_id (VDict m')), m'.*1).
Proof.
  intros Hperm Hret.
  destruct (instantiate_returns _ _ _ _ _ _ Hret) as [Hc _].
  destruct (construct_cases cls model_id (VDict m) Hc)
    as [[Hd _]|[(m0 & [= <-] & Hall & _)|(pre & source & params & post & Hm & _ & _ & Heq)]].
  - discriminate.
  - rewrite Hperm in Hall.
    rewrite instantiate_concrete, check_dict, loop_all_known by done.
    reflexivity.
  - rewrite Heq in Hret. discriminate.
Qed.

End further_properties.

(** X6: a configuration accepted under one registry is accepted, with the
    same instance, under every larger registry. *)
Theorem instantiate_registry_mono (registry registry' : gset string)
    cls model_id sources obj qs :
  registry ⊆ registry' →
  instantiate registry cls model_id sources = (Return obj, qs) →
  instantiate registry' cls model_id sources = (Return obj, qs).
Proof.
  intros Hsub Hret.
  destruct (instantiate_returns _ _ _ _ _ _ Hret) as [Hc ->].
  destruct (construct_cases registry cls model_id sources Hc)
    as [[_ Heq]|[(m & -> & Hall & Heq)|(pre & source & params & post & _ & _ & _ & Heq)]];
    rewrite Heq in Hret; try discriminate.
  injection Hret as <-.
  rewrite instantiate_concrete, check_dict, loop_all_known; [done| |done].
  eapply Forall_impl; [exact Hall|].
  intros [[] p]; simpl; try done.
  rewrite !bool_decide_eq_true. set_solver.
Qed.

(** *** The name over a run of operations *)

Lemma perform_all_snoc ops op σ :
  perform_all (ops ++ [op]) σ = perform (perform_all ops σ) op.
Proof. unfold perform_all. by rewrite foldl_snoc. Qed.

Lemma last_assigned_snoc ops op :
  last_assigned (ops ++ [op]) =
    match assigned_str op with
    | Some s => Some s
    | None => last_assigned ops
    end.
Proof.
  unfold last_assigned. rewrite omap_app. simpl.
  destruct (assigned_str op) as [s|]; simpl.
  - by rewrite last_snoc.
  - by rewrite app_nil_r.
Qed.

(** The [_name] attribute after a run: the last string assigned, or what
    it held before when none was. *)
Lemma perform_all_name ops σ v0 :
  self σ !! "_name" = Some v0 →
  self (perform_all ops σ) !! "_name" =
    Some (match last_assigned ops with Some s => VStr s | None => v0 end).
Proof.
  intros Hv0. induction ops as [|op ops IH] using rev_ind; [done|].
  rewrite perform_all_snoc, last_assigned_snoc.
  destruct op as [|v]; simpl.
  - by rewrite name_final.
  - unfold final, name_setter. destruct v; simpl; try done.
    by rewrite lookup_insert_eq.
Qed.

(** X7: the last assignment wins.  After instantiation and any run of
    reads and assignments, reading [name] returns the last string that
    was assigned, rejected assignments in between notwithstanding, and
    raises ["Name has not been set."] when no string ever was. *)
Theorem name_after_operations registry cls model_id sources obj qs ops :
  instantiate registry cls model_id sources = (Return obj, qs) →
  outcome name (perform_all ops (State obj qs)) =
    match last_assigned ops with
    | Some s => Return (VStr s)
    | None => Raise (raise_ ValueError (Literal "Name has not been set."))
    end.
Proof.
  intros [_ ->]%instantiate_returns.
  pose proof (perform_all_name ops (State (initialised model_id sources) qs) VNone
                eq_refl) as Hname.
  unfold outcome. rewrite name_unfold, Hname.
  by destruct (last_assigned ops).
Qed.

(** *** [__init__] on an instance that has attributes already *)

(** X8: run on an instance in any state with an accepted configuration,
    [__init__] overwrites [id] and [sources_dict], leaves every other
    attribute but [_name] as it was, and forgets a name assigned before:
    reading [name] raises again. *)
Theorem init_on_any_instance registry model_id (m : list (value * value)) σ :
  Forall (λ kv, known_source registry kv.1 = true) m →
  outcome (__init__ registry model_id (VDict m)) σ = Return tt
  ∧ self (final (__init__ registry model_id (VDict m)) σ) !! "id" = Some model_id
  ∧ self (final (__init__ registry model_id (VDict m)) σ) !! "sources_dict"
      = Some (VDict m)
  ∧ (∀ attr, attr ≠ "id" → attr ≠ "sources_dict" → attr ≠ "_name" →
       self (final (__init__ registry model_id (VDict m)) σ) !! attr
         = self σ !! attr)
  ∧ outcome name (final (__init__ registry model_id (VDict m)) σ) =
      Raise (raise_ ValueError (Literal "Name has not been set.")).
Proof.
  intros Hall. unfold outcome, final.
  rewrite init_unfold, check_dict, loop_all_known by done. simpl.
  split; [done|]. split; [by simplify_map_eq|]. split; [by simplify_map_eq|].
  split.
  - intros attr H1 H2 H3. by rewrite !lookup_insert_ne.
  - rewrite name_unfold. simpl. by rewrite lookup_insert_eq.
Qed.

(** X9: [id] is assigned before the configuration is checked.  When
    [__init__] raises, the instance has gained [id] and nothing else; on
    an instance that had no [_name], reading [name] then fails with
    [AttributeError] rather than with the [ValueError] of an unset name. *)
Theorem init_failure_leaves_id registry model_id sources σ e σ' :
  __init__ registry model_id sources σ = (Raise e, σ') →
  self σ' = <["id" := model_id]> (self σ)
  ∧ (self σ !! "_name" = None →
     ∃ e', outcome name σ' = Raise e' ∧ exc_type e' = AttributeError).
Proof.
  rewrite init_unfold.
  destruct (_check_source_list registry sources _) as [[checked|e1] σ1] eqn:Hcheck;
    [discriminate|].
  intros [= <- <-].
  apply check_returns_argument in Hcheck as [Hself _]. simpl in Hself.
  split; [done|]. intros Hnone.
  unfold outcome. rewrite name_unfold, Hself, lookup_insert_ne, Hnone by done.
  by eexists.
Qed.

(** *** Classes that can be instantiated *)

(** X10: a class deriving directly from [AlphaModel] whose body defines
    [update] and [forecast] as plain methods, and no abstract method, can
    be instantiated: with an accepted configuration it yields an
    instance. *)
Theorem direct_subclass_instantiable registry cname
    (namespace : gmap string member) model_id (m : list (value * value)) :
  namespace !! "update" = Some method →
  namespace !! "forecast" = Some method →
  own_abstracts namespace = ∅ →
  Forall (λ kv, known_source registry kv.1 = true) m →
  instantiate registry (Subclass cname AlphaModel namespace) model_id (VDict m) =
    (Return (initialised model_id (VDict m)), m.*1).
Proof.
  intros Hu Hf Hown Hall.
  rewrite instantiate_concrete, check_dict, loop_all_known;
    [done | done | by apply implements_both_concrete].
Qed.


(** ** The further properties at the sample inputs *)

Lemma instantiate_stops_at_first_unknown_witness :
  concrete MomentumV1
  ∧ Forall (λ kv, known_source momentum_registry kv.1 = true)
      [(VStr "momentum_factor", VNone)]
  ∧ known_source momentum_registry (VStr "bogus_source") = false
  ∧ instantiate momentum_registry MomentumV1 (VInt 1)
      (VDict ([(VStr "momentum_factor", VNone)]
              ++ (VStr "bogus_source", VDict [])
                 :: [(VStr "other_bogus", VInt 3)])) =
      (Raise (raise_ ValueError
                (Format "Source {} does not exist!" (VStr "bogus_source"))),
       [VStr "momentum_factor"; VStr "bogus_source"]).
Proof.
  assert (concrete MomentumV1) as Hc by reflexivity.
  assert (Forall (λ kv, known_source momentum_registry kv.1 = true)
            [(VStr "momentum_factor", VNone)]) as Hpre by (repeat constructor).
  assert (known_source momentum_registry (VStr "bogus_source") = false)
    as Hsrc by reflexivity.
  split; [exact Hc|]. split; [exact Hpre|]. split; [exact Hsrc|].
  exact (instantiate_stops_at_first_unknown momentum_registry MomentumV1 (VInt 1)
           [(VStr "momentum_factor", VNone)] [(VStr "other_bogus", VInt 3)]
           (VStr "bogus_source") (VDict []) Hc Hpre Hsrc).
Defined.

Lemma instantiate_error_class_witness :
  concrete MomentumV1
  ∧ instantiate momentum_registry MomentumV1 (VInt 1) (VTuple []) =
      (Raise (raise_ TypeError
         (Literal "Alpha Model needs to be given a dictionary of sources and their parameters")),
       [])
  ∧ ((TypeError = TypeError ∧ isinstance_dict (VTuple []) = false ∧ @nil value = [])
     ∨ (TypeError = ValueError ∧ isinstance_dict (VTuple []) = true ∧
        ∃ source, last (@nil value) = Some source
                  ∧ known_source momentum_registry source = false
                  ∧ Literal "Alpha Model needs to be given a dictionary of sources and their parameters"
                    = Format "Source {} does not exist!" source)).
Proof.
  assert (concrete MomentumV1) as Hc by reflexivity.
  assert (instantiate momentum_registry MomentumV1 (VInt 1) (VTuple []) =
      (Raise (raise_ TypeError
         (Literal "Alpha Model needs to be given a dictionary of sources and their parameters")),
       [])) as Hraise by (vm_compute; reflexivity).
  split; [exact Hc|]. split; [exact Hraise|].
  exact (instantiate_error_class momentum_registry MomentumV1 (VInt 1) (VTuple [])
           _ _ Hc Hraise).
Defined.

Lemma instantiate_permutation_witness :
  two_sources ≡ₚ two_sources_swapped
  ∧ instantiate wider_registry MomentumV1 (VInt 1) (VDict two_sources_swapped) =
      (Return (initialised (VInt 1) (VDict two_sources_swapped)),
       [VStr "value_factor"; VStr "momentum_factor"]).
Proof.
  assert (two_sources ≡ₚ two_sources_swapped) as Hperm by apply perm_swap.
  assert (instantiate wider_registry MomentumV1 (VInt 1) (VDict two_sources) =
            (Return (initialised (VInt 1) (VDict two_sources)), two_sources.*1))
    as Hret by (vm_compute; reflexivity).
  split; [exact Hperm|].
  exact (instantiate_permutation wider_registry MomentumV1 (VInt 1)
           two_sources two_sources_swapped Hperm Hret).
Defined.

Lemma instantiate_registry_mono_witness :
  momentum_registry ⊆ wider_registry
  ∧ instantiate wider_registry MomentumV1 (VInt 1) (VDict momentum_config) =
      (Return (initialised (VInt 1) (VDict momentum_config)),
       [VStr "momentum_factor"]).
Proof.
  assert (momentum_registry ⊆ wider_registry) as Hsub
    by (unfold momentum_registry, wider_registry; set_solver).
  assert (instantiate momentum_registry MomentumV1 (VInt 1) (VDict momentum_config) =
            (Return (initialised (VInt 1) (VDict momentum_config)),
             [VStr "momentum_factor"])) as Hret by (vm_compute; reflexivity).
  split; [exact Hsub|].
  exact (instantiate_registry_mono momentum_registry wider_registry MomentumV1
           (VInt 1) (VDict momentum_config) _ _ Hsub Hret).
Defined.

Lemma name_after_operations_witness :
  instantiate momentum_registry MomentumV1 (VInt 1) (VDict momentum_config) =
    (Return (initialised (VInt 1) (VDict momentum_config)), [VStr "momentum_factor"])
  ∧ outcome name
      (perform_all [set_name (VStr "MomentumV1"); set_name (VInt 5); get_name;
                    set_name (VStr "MomentumV2"); set_name VNone]
         (State (initialised (VInt 1) (VDict momentum_config))
                [VStr "momentum_factor"])) =
      Return (VStr "MomentumV2").
Proof.
  assert (instantiate momentum_registry MomentumV1 (VInt 1) (VDict momentum_config) =
    (Return (initialised (VInt 1) (VDict momentum_config)), [VStr "momentum_factor"]))
    as Hinst by (vm_compute; reflexivity).
  split; [exact Hinst|].
  exact (name_after_operations momentum_registry MomentumV1 (VInt 1)
           (VDict momentum_config) _ _
           [set_name (VStr "MomentumV1"); set_name (VInt 5); get_name;
            set_name (VStr "MomentumV2"); set_name VNone] Hinst).
Defined.

Lemma init_on_any_instance_witness :
  Forall (λ kv, known_source momentum_registry kv.1 = true) momentum_config
  ∧ outcome name
      (final (__init__ momentum_registry (VInt 2) (VDict momentum_config))
         (State {[ "_name" := VStr "MomentumV1"; "window" := VInt 20 ]} [])) =
      Raise (raise_ ValueError (Literal "Name has not been set.")).
Proof.
  assert (Forall (λ kv, known_source momentum_registry kv.1 = true)
            momentum_config) as Hall by (repeat constructor).
  split; [exact Hall|].
  exact (proj2 (proj2 (proj2 (proj2
           (init_on_any_instance momentum_registry (VInt 2) momentum_config
              (State {[ "_name" := VStr "MomentumV1"; "window" := VInt 20 ]} [])
              Hall))))).
Defined.

Lemma init_failure_leaves_id_witness :
  __init__ momentum_registry (VInt 1) (VDict bogus_config) (State ∅ []) =
    (Raise (raise_ ValueError
              (Format "Source {} does not exist!" (VStr "bogus_source"))),
     State {[ "id" := VInt 1 ]} [VStr "momentum_factor"; VStr "bogus_source"])
  ∧ self (State {[ "id" := VInt 1 ]} [VStr "momentum_factor"; VStr "bogus_source"])
    = <["id" := VInt 1]> ∅.
Proof.
  assert (__init__ momentum_registry (VInt 1) (VDict bogus_config) (State ∅ []) =
    (Raise (raise_ ValueError
              (Format "Source {} does not exist!" (VStr "bogus_source"))),
     State {[ "id" := VInt 1 ]} [VStr "momentum_factor"; VStr "bogus_source"]))
    as Hraise by (vm_compute; reflexivity).
  split; [exact Hraise|].
  exact (proj1 (init_failure_leaves_id momentum_registry (VInt 1)
                  (VDict bogus_config) (State ∅ []) _ _ Hraise)).
Defined.

Lemma direct_subclass_instantiable_witness :
  ({[ "update" := method; "forecast" := method ]} : gmap string member)
    !! "update" = Some method
  ∧ ({[ "update" := method; "forecast" := method ]} : gmap string member)
      !! "forecast" = Some method
  ∧ own_abstracts {[ "update" := method; "forecast" := method ]} = ∅
  ∧ Forall (λ kv, known_source momentum_registry kv.1 = true) momentum_config
  ∧ instantiate momentum_registry MomentumV1 (VInt 1) (VDict momentum_config) =
      (Return (initialised (VInt 1) (VDict momentum_config)),
       [VStr "momentum_factor"]).
Proof.
  assert (({[ "update" := method; "forecast" := method ]} : gmap string member)
            !! "update" = Some method) as Hu by reflexivity.
  assert (({[ "update" := method; "forecast" := method ]} : gmap string member)
            !! "forecast" = Some method) as Hf by reflexivity.
  assert (own_abstracts {[ "update" := method; "forecast" := method ]} = ∅)
    as Hown by reflexivity.
  assert (Forall (λ kv, known_source momentum_registry kv.1 = true)
            momentum_config) as Hall by (repeat constructor).
  split; [exact Hu|]. split; [exact Hf|]. split; [exact Hown|].
  split; [exact Hall|].
  exact (direct_subclass_instantiable momentum_registry "MomentumV1" _ (VInt 1)
           momentum_config Hu Hf Hown Hall).
Defined.

